(** * TeachMate service worker: cache policy model

    A shallow embedding of [src/service-worker.js]: the request classifier
    of the fetch handler, the three fetch strategies ([networkFirst],
    [cacheFirst], [networkWithFallback]) and the install / activate /
    message / sync handlers, over an explicit model of the platform objects
    the script talks to (CacheStorage, Cache, Response objects, fetch). *)

From stdpp Require Import gmap strings list fin_maps.
From Stdlib Require Import ZArith.

Open Scope string_scope.

(** ** Constants of the script (lines 11-20) *)

Definition SW_VERSION : string := "teachmate-sw-v3.0.0".
Definition APP_SHELL_CACHE : string := "teachmate-shell-v3".
Definition RUNTIME_CACHE : string := "teachmate-runtime-v3".
Definition APP_SHELL : list string := ["/"; "/manifest.json"; "/offline.html"].

(** ** Requests and responses *)

(** The parts of a [Request] the script reads: [req.method],
    [req.destination], and the components [new URL(req.url)] exposes. *)
Record Request := mkRequest {
  method : string;
  origin : string;
  pathname : string;
  search : string;
  destination : string
}.

(** [req.url]; it is also the key under which a cache files a GET request. *)
Definition url (req : Request) : string :=
  origin req +:+ pathname req +:+ search req.

(** What a cache keeps of a response. *)
Record Response := mkResponse {
  status : Z;
  body : string
}.

(** [response.ok]: a status in the range 200-299. *)
Definition ok (r : Response) : bool :=
  (200 <=? status r)%Z && (status r <=? 299)%Z.

(** A response of status 206 (Partial Content), which [cache.put] and
    [cache.addAll] refuse although [response.ok] holds for it. *)
Definition partial_content (r : Response) : bool := (status r =? 206)%Z.

(** A JS [Response] object: its body is a stream that can be read once. *)
Record ResponseObject := mkObject {
  content : Response;
  bodyUsed : bool
}.

(** The JS values that flow through the [return] expressions of the
    strategies. [JPromise v] is a promise that fulfils with [v]. *)
Inductive JsVal :=
| JUndefined
| JResponse (o : nat)
| JPromise (v : JsVal).

(** ToBoolean: [undefined] is falsy, every object (a promise too) is truthy. *)
Definition truthy (v : JsVal) : bool :=
  match v with
  | JUndefined => false
  | JResponse _ => true
  | JPromise _ => true
  end.

(** [await v], also what resolving an async function's promise with [v]
    does: promises are unwrapped down to the value they fulfil with. *)
Fixpoint await (v : JsVal) : JsVal :=
  match v with
  | JPromise v' => await v'
  | _ => v
  end.

(** ** The worker's world *)

Inductive Effect :=
| EFetch (u : string)
| ECachesOpen (name : string)
| ECachesKeys
| ECachesDelete (name : string)
| ECachesMatch (u : string)
| ECachePut (name u : string)
| ESkipWaiting
| EClientsClaim
| EPostMessage (client : nat) (action : string).

(** A write that [cache.put] has accepted and that has not reached the
    cache yet. *)
Record Write := mkWrite {
  write_cache : string;
  write_key : string;
  write_response : Response
}.

(** [caches] is the CacheStorage: the named caches in creation order, each a
    map from request URL to stored response. [heap] holds the Response
    objects handed to the script, addressed by allocation index. [trace]
    records every call to a platform capability, oldest first. [pending]
    holds the writes of [cache.put] calls that the script did not await and
    that are still in flight, oldest first. *)
Record World := mkWorld {
  caches : list (string * gmap string Response);
  heap : list ResponseObject;
  skipWaitingFlag : bool;
  clients : list nat;
  trace : list Effect;
  pending : list Write
}.

Definition set_caches (cs : list (string * gmap string Response)) (w : World) : World :=
  mkWorld cs (heap w) (skipWaitingFlag w) (clients w) (trace w) (pending w).

Definition set_heap (h : list ResponseObject) (w : World) : World :=
  mkWorld (caches w) h (skipWaitingFlag w) (clients w) (trace w) (pending w).

Definition set_skipWaitingFlag (b : bool) (w : World) : World :=
  mkWorld (caches w) (heap w) b (clients w) (trace w) (pending w).

Definition set_trace (t : list Effect) (w : World) : World :=
  mkWorld (caches w) (heap w) (skipWaitingFlag w) (clients w) t (pending w).

Definition set_pending (ps : list Write) (w : World) : World :=
  mkWorld (caches w) (heap w) (skipWaitingFlag w) (clients w) (trace w) ps.

(** ** Computations: state plus exceptions *)

(** [Throw] is a thrown exception, or an awaited promise that rejected. *)
Inductive Result (A : Type) :=
| Ok (a : A)
| Throw.
Arguments Ok {A} a.
Arguments Throw {A}.

Definition M (A : Type) : Type := World -> Result A * World.

Definition ret {A} (a : A) : M A := fun w => (Ok a, w).

Definition throw {A} : M A := fun w => (Throw, w).

Definition bind {A B} (m : M A) (k : A -> M B) : M B :=
  fun w =>
    match m w with
    | (Ok a, w') => k a w'
    | (Throw, w') => (Throw, w')
    end.

Notation "'let*' x ':=' m 'in' k" := (bind m (fun x => k))
  (at level 10, x binder, m at level 200, k at level 200).

(** [try { m } catch { h }] *)
Definition try_catch {A} (m h : M A) : M A :=
  fun w =>
    match m w with
    | (Ok a, w') => (Ok a, w')
    | (Throw, w') => h w'
    end.

Definition emit (e : Effect) : M unit :=
  fun w => (Ok tt, set_trace (trace w ++ [e]) w).

Fixpoint forM {A} (xs : list A) (f : A -> M unit) : M unit :=
  match xs with
  | [] => ret tt
  | x :: xs' => let* _ := f x in forM xs' f
  end.

(** ** String and array primitives *)

(** [s.includes(sub)]: [sub] occurs in [s] at some position. *)
Fixpoint includes (s sub : string) : bool :=
  String.prefix sub s ||
  match s with
  | EmptyString => false
  | String _ s' => includes s' sub
  end.

(** [arr.includes(x)] on an array of strings. *)
Definition array_includes (arr : list string) (x : string) : bool :=
  existsb (String.eqb x) arr.

(** ** CacheStorage and Cache *)

(** [caches.match]: the caches are searched in creation order and the first
    one holding the key answers. *)
Fixpoint storage_match (cs : list (string * gmap string Response)) (u : string)
  : option Response :=
  match cs with
  | [] => None
  | (_, c) :: cs' =>
      match c !! u with
      | Some r => Some r
      | None => storage_match cs' u
      end
  end.

Definition storage_has (cs : list (string * gmap string Response)) (name : string) : bool :=
  existsb (fun nc => String.eqb (fst nc) name) cs.

(** The entries of the cache called [name]; a cache that does not exist has
    none. *)
Fixpoint generation (cs : list (string * gmap string Response)) (name : string)
  : gmap string Response :=
  match cs with
  | [] => ∅
  | (n, c) :: cs' => if String.eqb n name then c else generation cs' name
  end.

Definition storage_put (name u : string) (r : Response)
    (cs : list (string * gmap string Response)) : list (string * gmap string Response) :=
  map (fun nc => if String.eqb (fst nc) name then (fst nc, <[u := r]> (snd nc)) else nc) cs.

Definition storage_delete (name : string)
    (cs : list (string * gmap string Response)) : list (string * gmap string Response) :=
  filter (fun nc => fst nc ≠ name) cs.

(** A write in flight reaches its cache. *)
Definition land (cs : list (string * gmap string Response)) (wr : Write)
  : list (string * gmap string Response) :=
  storage_put (write_cache wr) (write_key wr) (write_response wr) cs.

(** The writes in flight all reach their caches, in the order in which they
    were issued. The script has no hand in when this happens: it is a step
    of the platform, between or after the runs of the handlers. *)
Definition settle (w : World) : World :=
  set_pending [] (set_caches (foldl land (caches w) (pending w)) w).

(** The storage after [caches.open(name)]. *)
Definition opened (name : string) (cs : list (string * gmap string Response))
  : list (string * gmap string Response) :=
  if storage_has cs name then cs else cs ++ [(name, ∅)].

(** The storage once a write of [R] under [u], issued after
    [caches.open(name)], has reached the cache [name]. *)
Definition landed (name u : string) (R : Response)
    (cs : list (string * gmap string Response)) : list (string * gmap string Response) :=
  storage_put name u R (opened name cs).

(** The storage after the writes of [cache.addAll]. *)
Definition storage_put_all (name : string) (entries : list (string * Response))
    (cs : list (string * gmap string Response)) : list (string * gmap string Response) :=
  foldl (fun cs e => storage_put name (fst e) (snd e) cs) cs entries.

(** A cache name the activate handler deletes. *)
Definition stale (key : string) : Prop :=
  array_includes [APP_SHELL_CACHE; RUNTIME_CACHE] key = false.

(** The storage without its stale caches. *)
Definition reclaimed (cs : list (string * gmap string Response))
  : list (string * gmap string Response) :=
  filter (fun nc => ¬ stale (fst nc)) cs.

(** ** Sample requests, networks and worlds *)

Definition site : string := "https://teachmate.app".

Definition index_page : Response := mkResponse 200 "<html>TeachMate</html>".
Definition manifest_doc : Response := mkResponse 200 "{ name: TeachMate }".
Definition index_page_v2 : Response := mkResponse 200 "<html>TeachMate 2</html>".
Definition offline_page : Response := mkResponse 200 "<html>You are offline</html>".
Definition not_found : Response := mkResponse 404 "Not Found".
Definition logo_png : Response := mkResponse 200 "PNG-logo".

Definition root_request : Request := mkRequest "GET" site "/" EmptyString "document".
Definition manifest_as_image : Request := mkRequest "GET" site "/manifest.json" EmptyString "image".
Definition logo_request : Request := mkRequest "GET" site "/logo.png" EmptyString "image".
Definition api_request : Request := mkRequest "GET" site "/api/lessons" EmptyString EmptyString.
Definition manifest_v2_request : Request :=
  mkRequest "GET" site "/manifest.json" "?v=2" EmptyString.
Definition lookalike_request : Request :=
  mkRequest "GET" "https://myfirebaseclone.example.com" "/logo.png" EmptyString "image".

(** The network is unreachable. *)
Definition net_down : Request -> option Response := fun _ => None.


(** The three shell paths are served. *)
Definition net_shell : Request -> option Response :=
  fun req =>
    if String.eqb (pathname req) "/" then Some index_page
    else if String.eqb (pathname req) "/manifest.json" then Some manifest_doc
    else if String.eqb (pathname req) "/offline.html" then Some offline_page
    else None.

(** The root document has changed at the origin. *)
Definition net_update : Request -> option Response :=
  fun req => if String.eqb (pathname req) "/" then Some index_page_v2 else None.

(** As [net_shell], but the fetch of the offline document fails. *)
Definition net_partial : Request -> option Response :=
  fun req =>
    if String.eqb (pathname req) "/" then Some index_page
    else if String.eqb (pathname req) "/manifest.json" then Some manifest_doc
    else None.

Definition shell_entries : gmap string Response :=
  {[ "https://teachmate.app/" := index_page;
     "https://teachmate.app/manifest.json" := manifest_doc;
     "https://teachmate.app/offline.html" := offline_page ]}.

Definition empty_world : World := mkWorld [] [] false [] [] [].

(** The shell is populated, the runtime generation is empty. *)
Definition installed_world : World :=
  mkWorld [(APP_SHELL_CACHE, shell_entries); (RUNTIME_CACHE, ∅)] [] true [] [] [].

(** The logo is held by the runtime generation. *)
Definition logo_cached_world : World :=
  mkWorld [(APP_SHELL_CACHE, shell_entries);
           (RUNTIME_CACHE, {[ "https://teachmate.app/logo.png" := logo_png ]})]
    [] true [] [] [].


Definition lessons_json : Response := mkResponse 200 "[ lessons ]".


(** The logo and the lessons are served, nothing else. *)
Definition net_assets : Request -> option Response :=
  fun req =>
    if String.eqb (pathname req) "/logo.png" then Some logo_png
    else if String.eqb (pathname req) "/api/lessons" then Some lessons_json
    else None.

Definition save_request : Request :=
  mkRequest "POST" site "/api/lessons" EmptyString EmptyString.
Definition pdf_request : Request :=
  mkRequest "GET" site "/notes.pdf" EmptyString "document".

(** Only the caches of the previous version exist. *)
Definition previous_version_world : World :=
  mkWorld [("teachmate-shell-v2", {[ "https://teachmate.app/" := not_found ]});
           ("teachmate-runtime-v2", {[ "https://teachmate.app/logo.png" := logo_png ]})]
    [] false [7; 9] [] [].

(** A cache of the previous version is still there. *)
Definition rollover_world : World :=
  mkWorld [("teachmate-shell-v2", {[ "https://teachmate.app/" := not_found ]});
           (APP_SHELL_CACHE, shell_entries);
           (RUNTIME_CACHE, {[ "https://teachmate.app/logo.png" := logo_png ]})]
    [] true [] [] [].

(** ** Platform capabilities *)

Section Worker.

(** [self.location.origin], against which a path such as ['/offline.html']
    is resolved. *)
Variable scope : string.

(** The network: the response the origin gives to a request, or [None] when
    the fetch fails (the promise of [fetch] rejects). A response of any
    status is a response: [fetch] rejects on unreachability only. *)
Variable network : Request -> option Response.

(** The request a bare path stands for in [caches.match(path)] and
    [cache.addAll(paths)]. *)
Definition request_of_path (p : string) : Request :=
  mkRequest "GET" scope p EmptyString EmptyString.

Definition alloc (r : Response) : M nat :=
  fun w => (Ok (length (heap w)), set_heap (heap w ++ [mkObject r false]) w).

(** [await fetch(req)] *)
Definition fetch (req : Request) : M nat :=
  let* _ := emit (EFetch (url req)) in
  match network req with
  | Some r => alloc r
  | None => throw
  end.

(** [response.clone()]: a second object over the same content; a TypeError
    when the body has been read. *)
Definition clone (o : nat) : M nat :=
  fun w =>
    match heap w !! o with
    | Some obj => if bodyUsed obj then (Throw, w) else alloc (content obj) w
    | None => (Throw, w)
    end.


(** [await caches.open(name)]: the cache is created when it does not exist;
    the handle is the cache's name. *)
Definition caches_open (name : string) : M string :=
  let* _ := emit (ECachesOpen name) in
  fun w =>
    if storage_has (caches w) name then (Ok name, w)
    else (Ok name, set_caches (caches w ++ [(name, ∅)]) w).

(** [cache.put(req, response)], which the script calls and does not await
    (lines 103, 117, 125). The call is made; a response of status 206, or
    one whose body was read before, is refused (the promise rejects, which
    the script does not observe, and nothing will be written). Otherwise
    the body of [response] is taken and the write of its content under
    [req.url] is in flight: the strategy goes on, and returns, before the
    write has reached the cache. *)
Definition cache_put (cache : string) (req : Request) (o : nat) : M unit :=
  let* _ := emit (ECachePut cache (url req)) in
  fun w =>
    match heap w !! o with
    | Some obj =>
        if partial_content (content obj) then (Ok tt, w)
        else if bodyUsed obj then (Ok tt, w)
        else
          (Ok tt,
           set_pending (pending w ++ [mkWrite cache (url req) (content obj)])
             (set_heap (<[o := mkObject (content obj) true]> (heap w)) w))
    | None => (Ok tt, w)
    end.

(** [caches.match(key)]: the call returns a promise, which fulfils with a
    new Response object over the first entry found, or with [undefined]. *)
Definition caches_match (u : string) : M JsVal :=
  let* _ := emit (ECachesMatch u) in
  fun w =>
    match storage_match (caches w) u with
    | Some r =>
        match alloc r w with
        | (Ok o, w') => (Ok (JPromise (JResponse o)), w')
        | (Throw, w') => (Throw, w')
        end
    | None => (Ok (JPromise JUndefined), w)
    end.

(** [a || b]: [b] is evaluated only when [a] is falsy. *)
Definition js_or (a : JsVal) (b : M JsVal) : M JsVal :=
  if truthy a then ret a else b.

(** What [cache.addAll] obtains for one request: a response with an ok
    status that is not 206. *)
Definition addAll_fetch (req : Request) : option (string * Response) :=
  match network req with
  | Some r => if ok r && negb (partial_content r) then Some (url req, r) else None
  | None => None
  end.

(** [await cache.addAll(paths)]: every request is fetched; when any fetch
    fails or answers with a status that is not ok, or with a 206, the
    promise rejects and nothing is written; otherwise all the responses are
    written, and the promise fulfils once they are. *)
Definition cache_addAll (cache : string) (paths : list string) : M unit :=
  let reqs := map request_of_path paths in
  let* _ := forM reqs (fun req => emit (EFetch (url req))) in
  match mapM addAll_fetch reqs with
  | Some entries =>
      forM entries (fun e =>
        fun w =>
          (Ok tt,
           set_trace (trace w ++ [ECachePut cache (fst e)])
             (set_caches (storage_put cache (fst e) (snd e) (caches w)) w)))
  | None => throw
  end.

(** [await caches.keys()] *)
Definition caches_keys : M (list string) :=
  let* _ := emit ECachesKeys in
  fun w => (Ok (map fst (caches w)), w).

(** [caches.delete(name)] *)
Definition caches_delete (name : string) : M unit :=
  let* _ := emit (ECachesDelete name) in
  fun w => (Ok tt, set_caches (storage_delete name (caches w)) w).

(** [self.skipWaiting()] *)
Definition skipWaiting : M unit :=
  let* _ := emit ESkipWaiting in
  fun w => (Ok tt, set_skipWaitingFlag true w).

(** [self.clients.claim()] *)
Definition clients_claim : M unit := emit EClientsClaim.

(** ** The handlers of the script *)

(** install (lines 25-33). [Throw] is the rejection [event.waitUntil]
    observes: the installation fails. *)
Definition on_install : M unit :=
  let* _ := skipWaiting in
  let* cache := caches_open APP_SHELL_CACHE in
  cache_addAll cache APP_SHELL.

(** activate (lines 38-54). [self.clients.claim()] is called while the
    array given to [Promise.all] is built, before the callback on the keys
    runs. *)
Definition on_activate : M unit :=
  let* keys := caches_keys in
  let* _ := clients_claim in
  forM keys (fun key =>
    if negb (array_includes [APP_SHELL_CACHE; RUNTIME_CACHE] key)
    then caches_delete key
    else ret tt).

(** The decision of the fetch handler (lines 59-93). *)
Inductive PolicyTag :=
| PASS_THROUGH
| SHELL_RESOURCE
| STATIC_ASSET
| DYNAMIC_RESOURCE.

Definition bypassed (req : Request) : bool :=
  includes (origin req) "googleapis" ||
  includes (origin req) "firebase" ||
  includes (origin req) "gstatic".

Definition classify (req : Request) : PolicyTag :=
  if negb (String.eqb (method req) "GET") then PASS_THROUGH
  else if bypassed req then PASS_THROUGH
  else if array_includes APP_SHELL (pathname req) || String.eqb (pathname req) "/"
       then SHELL_RESOURCE
  else if String.eqb (destination req) "image" ||
          String.eqb (destination req) "font" ||
          String.eqb (destination req) "style"
       then STATIC_ASSET
  else DYNAMIC_RESOURCE.

(** lines 99-109. The value is the one the async function's promise
    fulfils with; [Throw] is its rejection. *)
Definition networkFirst (req : Request) : M JsVal :=
  try_catch
    (let* fresh := fetch req in
     let* cache := caches_open APP_SHELL_CACHE in
     let* copy := clone fresh in
     let* _ := cache_put cache req copy in
     ret (JResponse fresh))
    (let* p := caches_match (url req) in
     let cached := await p in
     let* v := js_or cached (caches_match (url (request_of_path "/offline.html"))) in
     ret (await v)).

(** lines 111-119 *)
Definition cacheFirst (req : Request) : M JsVal :=
  let* p := caches_match (url req) in
  let cached := await p in
  if truthy cached then ret cached
  else
    let* fresh := fetch req in
    let* cache := caches_open RUNTIME_CACHE in
    let* copy := clone fresh in
    let* _ := cache_put cache req copy in
    ret (JResponse fresh).

(** lines 121-130. In the catch block [caches.match(req)] is not awaited:
    the left operand of [||] is the promise itself. *)
Definition networkWithFallback (req : Request) : M JsVal :=
  try_catch
    (let* fresh := fetch req in
     let* cache := caches_open RUNTIME_CACHE in
     let* copy := clone fresh in
     let* _ := cache_put cache req copy in
     ret (JResponse fresh))
    (let* p := caches_match (url req) in
     let* v := js_or p (caches_match (url (request_of_path "/offline.html"))) in
     ret (await v)).

(** What the page gets for a request. *)
Inductive Outcome :=
| NotIntercepted
| Served (o : nat)
| Failed.

(** [event.respondWith(p)]: a promise that fulfils with a Response serves
    it; one that rejects, or fulfils with anything else, is a network error
    for the page. *)
Definition respondWith (p : M JsVal) : World -> Outcome * World :=
  fun w =>
    match p w with
    | (Ok (JResponse o), w') => (Served o, w')
    | (_, w') => (Failed, w')
    end.

(** The fetch handler: a request the handler returns from without
    [respondWith] goes to the network as if there were no worker. *)
Definition on_fetch (req : Request) : World -> Outcome * World :=
  match classify req with
  | PASS_THROUGH => fun w => (NotIntercepted, w)
  | SHELL_RESOURCE => respondWith (networkFirst req)
  | STATIC_ASSET => respondWith (cacheFirst req)
  | DYNAMIC_RESOURCE => respondWith (networkWithFallback req)
  end.

(** sync (lines 135-146) *)
Definition notifyClientsToSync : M unit :=
  fun w => forM (clients w) (fun c => emit (EPostMessage c "SYNC_NOW")) w.

Definition on_sync (tag : string) : M unit :=
  if String.eqb tag "teachmate-sync" then notifyClientsToSync else ret tt.

(** message (lines 151-155); [action] is [event.data?.action] when it is a
    string. *)
Definition on_message (action : option string) : M unit :=
  match action with
  | Some a => if String.eqb a "SKIP_WAITING" then skipWaiting else ret tt
  | None => ret tt
  end.

(** ** Worlds used to state the results *)

(** The world when a strategy returns the response [R] it fetched: the
    cache [name] is open, the clone has been given to [cache.put], and the
    write of [R] is in flight, unless [R] is a 206, which the cache
    refuses. *)
Definition issued (name : string) (req : Request) (R : Response) (w : World) : World :=
  mkWorld (opened name (caches w))
    (heap w ++ [mkObject R false; mkObject R (negb (partial_content R))])
    (skipWaitingFlag w) (clients w)
    (trace w ++ [EFetch (url req); ECachesOpen name; ECachePut name (url req)])
    (pending w ++ if partial_content R then [] else [mkWrite name (url req) R]).

(** The world after the script was handed a new object over [r] while the
    calls [es] were made. *)
Definition handed (r : Response) (es : list Effect) (w : World) : World :=
  mkWorld (caches w) (heap w ++ [mkObject r false])
    (skipWaitingFlag w) (clients w) (trace w ++ es) (pending w).

(** The address of the offline document in the caches. *)
Definition offline_url : string := url (request_of_path "/offline.html").

(** ** Properties of the primitives *)

Lemma prefix_app (sub post : string) : String.prefix sub (sub +:+ post) = true.
Proof.
  induction sub as [|a sub IH]; simpl.
  - by destruct post.
  - destruct (Ascii.ascii_dec a a) as [_|Hne]; [exact IH | by destruct Hne].
Qed.

Lemma includes_unfold (s sub : string) :
  includes s sub =
  String.prefix sub s ||
  match s with
  | EmptyString => false
  | String _ s' => includes s' sub
  end.
Proof. by destruct s. Qed.

(** [includes] is containment at any position. *)
Lemma includes_app (pre sub post : string) :
  includes (pre +:+ sub +:+ post) sub = true.
Proof.
  induction pre as [|a pre IH].
  - change (includes (sub +:+ post) sub = true).
    by rewrite includes_unfold, prefix_app.
  - change (includes (String a (pre +:+ sub +:+ post)) sub = true).
    rewrite includes_unfold, IH. apply orb_true_r.
Qed.

Lemma array_includes_elem (arr : list string) (x : string) :
  array_includes arr x = true ↔ x ∈ arr.
Proof.
  unfold array_includes. rewrite existsb_exists. split.
  - intros (y & Hy & Heq). apply String.eqb_eq in Heq as ->.
    by apply list_elem_of_In.
  - intros Hx. exists x. split; [by apply list_elem_of_In | apply String.eqb_refl].
Qed.

(** ** Properties of the cache storage *)

Lemma generation_put_same cs name u r :
  storage_has cs name = true →
  generation (storage_put name u r cs) name = <[u := r]> (generation cs name).
Proof.
  induction cs as [|[n c] cs IH]; simpl; [done|].
  destruct (String.eqb n name) eqn:E; simpl; rewrite E; auto.
Qed.

Lemma generation_put_other cs name name' u r :
  name' ≠ name →
  generation (storage_put name u r cs) name' = generation cs name'.
Proof.
  intros Hne. induction cs as [|[n c] cs IH]; simpl; [done|].
  destruct (String.eqb n name) eqn:E; simpl.
  - apply String.eqb_eq in E as ->.
    destruct (String.eqb name name') eqn:E'; [|done].
    apply String.eqb_eq in E'. congruence.
  - by rewrite IH.
Qed.

Lemma generation_absent cs name :
  storage_has cs name = false → generation cs name = ∅.
Proof.
  induction cs as [|[n c] cs IH]; simpl; [done|].
  destruct (String.eqb n name); simpl; [done | exact IH].
Qed.

Lemma generation_opened name cs g :
  generation (opened name cs) g = generation cs g.
Proof.
  unfold opened. destruct (storage_has cs name) eqn:Hhas; [done|].
  clear Hhas. induction cs as [|[n c] cs IH]; simpl.
  - by destruct (String.eqb name g).
  - by destruct (String.eqb n g).
Qed.

Lemma storage_has_opened name cs : storage_has (opened name cs) name = true.
Proof.
  unfold opened. destruct (storage_has cs name) eqn:Hhas; [done|].
  unfold storage_has. rewrite existsb_app. simpl.
  rewrite String.eqb_refl. apply orb_true_r.
Qed.


(** ** The common path of the three strategies: fetch, then hand a clone to
    the cache without waiting *)

Lemma fetch_store_run (name : string) (req : Request) (R : Response) (w : World) :
  network req = Some R →
  (let* fresh := fetch req in
   let* cache := caches_open name in
   let* copy := clone fresh in
   let* _ := cache_put cache req copy in
   ret (JResponse fresh)) w =
  (Ok (JResponse (length (heap w))), issued name req R w).
Proof.
  intros Hnet. destruct w as [cs h f cl t ps].
  unfold issued, bind, fetch, caches_open, clone, cache_put, emit, alloc, ret, opened, bind.
  simpl. rewrite Hnet. simpl.
  assert (Hfresh : ((h ++ [mkObject R false]) !! length h = Some (mkObject R false))%list)
    by (by apply list_lookup_middle).
  assert (Hcopy : (((h ++ [mkObject R false]) ++ [mkObject R false])
                    !! length (h ++ [mkObject R false]) = Some (mkObject R false))%list)
    by (by apply list_lookup_middle).
  assert (Hused : (<[length (h ++ [mkObject R false]) := mkObject R true]>
                    ((h ++ [mkObject R false]) ++ [mkObject R false]) =
                  h ++ [mkObject R false; mkObject R true])%list).
  { rewrite insert_app_r_alt by lia. rewrite Nat.sub_diag. simpl.
    by rewrite <- app_assoc. }
  destruct (storage_has cs name); simpl; rewrite Hfresh; simpl; rewrite Hcopy; simpl;
    destruct (partial_content R); simpl; rewrite ?Hused;
    unfold set_trace, set_caches, set_heap, set_pending; simpl;
    rewrite <- ?app_assoc; simpl; rewrite ?app_nil_r; done.
Qed.

Lemma fetch_store_fail (name : string) (req : Request) (w : World) :
  network req = None →
  (let* fresh := fetch req in
   let* cache := caches_open name in
   let* copy := clone fresh in
   let* _ := cache_put cache req copy in
   ret (JResponse fresh)) w =
  (Throw, set_trace (trace w ++ [EFetch (url req)]) w).
Proof.
  intros Hnet. unfold bind, fetch, emit, throw. simpl. by rewrite Hnet.
Qed.

Lemma caches_match_run (u : string) (w : World) :
  caches_match u w =
  match storage_match (caches w) u with
  | Some r => (Ok (JPromise (JResponse (length (heap w)))), handed r [ECachesMatch u] w)
  | None => (Ok (JPromise JUndefined), set_trace (trace w ++ [ECachesMatch u]) w)
  end.
Proof.
  unfold caches_match, bind, emit, alloc. simpl.
  by destruct (storage_match (caches w) u).
Qed.

(** ** The three strategies, case by case *)

Lemma networkFirst_online (req : Request) (R : Response) (w : World) :
  network req = Some R →
  networkFirst req w = (Ok (JResponse (length (heap w))), issued APP_SHELL_CACHE req R w).
Proof.
  intros Hnet. unfold networkFirst, try_catch.
  by rewrite (fetch_store_run _ _ R).
Qed.

Lemma networkFirst_offline (req : Request) (w : World) :
  network req = None →
  networkFirst req w =
  match storage_match (caches w) (url req) with
  | Some e =>
      (Ok (JResponse (length (heap w))),
       handed e [EFetch (url req); ECachesMatch (url req)] w)
  | None =>
      match storage_match (caches w) offline_url with
      | Some d =>
          (Ok (JResponse (length (heap w))),
           handed d [EFetch (url req); ECachesMatch (url req); ECachesMatch offline_url] w)
      | None =>
          (Ok JUndefined,
           set_trace (trace w ++ [EFetch (url req); ECachesMatch (url req);
                                  ECachesMatch offline_url]) w)
      end
  end.
Proof.
  intros Hnet. unfold networkFirst, try_catch.
  rewrite fetch_store_fail by done.
  unfold bind at 1. rewrite caches_match_run. simpl.
  destruct (storage_match (caches w) (url req)) as [e|]; simpl.
  - unfold handed. simpl. by rewrite <- app_assoc.
  - unfold bind, ret, js_or. cbv [truthy]. rewrite caches_match_run. simpl.
    fold offline_url.
    destruct (storage_match (caches w) offline_url) as [d|]; simpl;
      unfold handed, set_trace; simpl; by rewrite <- !app_assoc.
Qed.

Lemma cacheFirst_hit (req : Request) (e : Response) (w : World) :
  storage_match (caches w) (url req) = Some e →
  cacheFirst req w =
  (Ok (JResponse (length (heap w))), handed e [ECachesMatch (url req)] w).
Proof.
  intros Hhit. unfold cacheFirst, bind at 1.
  by rewrite caches_match_run, Hhit.
Qed.

Lemma cacheFirst_miss_online (req : Request) (R : Response) (w : World) :
  storage_match (caches w) (url req) = None →
  network req = Some R →
  cacheFirst req w =
  (Ok (JResponse (length (heap w))),
   issued RUNTIME_CACHE req R (set_trace (trace w ++ [ECachesMatch (url req)]) w)).
Proof.
  intros Hmiss Hnet. unfold cacheFirst, bind at 1.
  rewrite caches_match_run, Hmiss. simpl.
  by rewrite (fetch_store_run _ _ R).
Qed.

Lemma cacheFirst_miss_offline (req : Request) (w : World) :
  storage_match (caches w) (url req) = None →
  network req = None →
  cacheFirst req w =
  (Throw, set_trace (trace w ++ [ECachesMatch (url req); EFetch (url req)]) w).
Proof.
  intros Hmiss Hnet. unfold cacheFirst, bind at 1.
  rewrite caches_match_run, Hmiss. simpl.
  rewrite fetch_store_fail by done.
  unfold set_trace. simpl. by rewrite <- app_assoc.
Qed.

Lemma networkWithFallback_online (req : Request) (R : Response) (w : World) :
  network req = Some R →
  networkWithFallback req w =
  (Ok (JResponse (length (heap w))), issued RUNTIME_CACHE req R w).
Proof.
  intros Hnet. unfold networkWithFallback, try_catch.
  by rewrite (fetch_store_run _ _ R).
Qed.

(** When the fetch fails, the value of [networkWithFallback] is that of
    [caches.match(req)] alone: the promise on the left of [||] is truthy,
    so the offline document is never looked up. *)
Lemma networkWithFallback_offline (req : Request) (w : World) :
  network req = None →
  networkWithFallback req w =
  match storage_match (caches w) (url req) with
  | Some e =>
      (Ok (JResponse (length (heap w))),
       handed e [EFetch (url req); ECachesMatch (url req)] w)
  | None =>
      (Ok JUndefined,
       set_trace (trace w ++ [EFetch (url req); ECachesMatch (url req)]) w)
  end.
Proof.
  intros Hnet. unfold networkWithFallback, try_catch.
  rewrite fetch_store_fail by done.
  unfold bind at 1. rewrite caches_match_run. simpl.
  destruct (storage_match (caches w) (url req)) as [e|]; simpl;
    unfold handed, set_trace; simpl; by rewrite <- !app_assoc.
Qed.


Lemma issued_generation name req R w g :
  generation (caches (issued name req R w)) g = generation (caches w) g.
Proof. unfold issued. simpl. apply generation_opened. Qed.


Lemma issued_heap_fresh name req R w :
  heap (issued name req R w) !! length (heap w) = Some (mkObject R false).
Proof. unfold issued. simpl. by apply list_lookup_middle. Qed.


(** ** Writes in flight and their landing *)



Lemma landed_generation name u R cs :
  generation (landed name u R cs) name = <[u := R]> (generation cs name).
Proof.
  unfold landed. rewrite generation_put_same by apply storage_has_opened.
  by rewrite generation_opened.
Qed.

Lemma landed_generation_other name u R cs g :
  g ≠ name → generation (landed name u R cs) g = generation cs g.
Proof.
  intros Hne. unfold landed. rewrite generation_put_other by done.
  apply generation_opened.
Qed.

Lemma landed_frame name u R cs (g k : string) :
  (g, k) ≠ (name, u) →
  generation (landed name u R cs) g !! k = generation cs g !! k.
Proof.
  intros Hne. destruct (decide (g = name)) as [->|Hg].
  - rewrite landed_generation, lookup_insert_ne; [done | congruence].
  - by rewrite landed_generation_other.
Qed.

(** With no other write in flight, the storage after the write of a
    strategy has landed; a 206 leaves the storage as the strategy found
    it, the cache opened. *)
Lemma settle_issued_caches name req R w :
  pending w = [] →
  caches (settle (issued name req R w)) =
  if partial_content R then opened name (caches w)
  else landed name (url req) R (caches w).
Proof.
  intros Hp. unfold settle, issued. cbn [caches pending set_caches set_pending].
  rewrite Hp. by destruct (partial_content R).
Qed.


Lemma handed_heap e es w :
  heap (handed e es w) !! length (heap w) = Some (mkObject e false).
Proof. unfold handed. simpl. by apply list_lookup_middle. Qed.

Lemma on_fetch_shell (req : Request) :
  classify req = SHELL_RESOURCE → on_fetch req = respondWith (networkFirst req).
Proof. unfold on_fetch. by intros ->. Qed.

Lemma on_fetch_static (req : Request) :
  classify req = STATIC_ASSET → on_fetch req = respondWith (cacheFirst req).
Proof. unfold on_fetch. by intros ->. Qed.


(** ** The classifier *)

(** C4. A GET request to an origin that is not bypassed and whose path is
    one of the shell paths is classified SHELL_RESOURCE whatever its
    destination is (image, font and style included), and the fetch handler
    answers it with [networkFirst]. *)
Theorem classify_shell_priority (req : Request) :
  method req = "GET" →
  bypassed req = false →
  pathname req ∈ APP_SHELL →
  classify req = SHELL_RESOURCE ∧ on_fetch req = respondWith (networkFirst req).
Proof.
  intros Hget Hby Hshell.
  assert (Hc : classify req = SHELL_RESOURCE).
  { apply array_includes_elem in Hshell.
    unfold classify. by rewrite Hget, Hby, Hshell. }
  split; [exact Hc | by apply on_fetch_shell].
Qed.

(** C9. The bypass test is containment: a request whose origin has
    "googleapis", "firebase" or "gstatic" anywhere inside it is passed
    through, and the fetch handler leaves the world as it was (no lookup,
    no fetch, no write). *)
Theorem bypass_by_substring (req : Request) (pre marker post : string) (w : World) :
  marker ∈ ["googleapis"; "firebase"; "gstatic"] →
  origin req = pre +:+ marker +:+ post →
  classify req = PASS_THROUGH ∧ on_fetch req w = (NotIntercepted, w).
Proof.
  intros Hmarker Horigin.
  assert (Hc : classify req = PASS_THROUGH).
  { unfold classify. destruct (negb (String.eqb (method req) "GET")); [done|].
    assert (Hby : bypassed req = true); [|by rewrite Hby].
    unfold bypassed. rewrite Horigin.
    repeat (apply elem_of_cons in Hmarker as [->|Hmarker]);
      [ | | | by apply elem_of_nil in Hmarker ];
      rewrite includes_app; by rewrite ?orb_true_r. }
  split; [exact Hc|]. unfold on_fetch. by rewrite Hc.
Qed.

(** ** The strategies *)

(** C6. For a STATIC_ASSET request whose key has a cached entry, the entry
    is served; the only call made is the lookup (no fetch, no write) and
    the caches are unchanged. *)
Theorem cacheFirst_hit_no_network (req : Request) (e : Response) (w : World) :
  classify req = STATIC_ASSET →
  storage_match (caches w) (url req) = Some e →
  ∃ o w', on_fetch req w = (Served o, w') ∧
          cacheFirst req w = (Ok (JResponse o), w') ∧
          heap w' !! o = Some (mkObject e false) ∧
          trace w' = (trace w ++ [ECachesMatch (url req)])%list ∧
          caches w' = caches w.
Proof.
  intros Hc Hhit. exists (length (heap w)), (handed e [ECachesMatch (url req)] w).
  rewrite on_fetch_static by done. unfold respondWith.
  rewrite (cacheFirst_hit _ e) by done.
  split_and!; [done | done | apply handed_heap | done | done].
Qed.

Lemma settle_issued_frame name req R w (g u : string) :
  pending w = [] →
  (g, u) ≠ (name, url req) →
  generation (caches (settle (issued name req R w))) g !! u = generation (caches w) g !! u.
Proof.
  intros Hp Hne. rewrite settle_issued_caches by done.
  destruct (partial_content R).
  - by rewrite generation_opened.
  - by apply landed_frame.
Qed.




(** ** Install *)

Lemma forM_emit {A} (f : A → Effect) (xs : list A) (w : World) :
  forM xs (fun x => emit (f x)) w = (Ok tt, set_trace (trace w ++ map f xs) w).
Proof.
  revert w. induction xs as [|x xs IH]; intros w; simpl.
  - unfold ret, set_trace. rewrite app_nil_r. by destruct w.
  - unfold bind, emit at 1. rewrite IH. unfold set_trace. simpl.
    by rewrite <- app_assoc.
Qed.

Lemma forM_put (name : string) (entries : list (string * Response)) (w : World) :
  forM entries (fun e w =>
    (Ok tt,
     set_trace (trace w ++ [ECachePut name (fst e)])
       (set_caches (storage_put name (fst e) (snd e) (caches w)) w))) w =
  (Ok tt,
   mkWorld (storage_put_all name entries (caches w)) (heap w)
     (skipWaitingFlag w) (clients w)
     (trace w ++ map (fun e => ECachePut name (fst e)) entries) (pending w)).
Proof.
  revert w. induction entries as [|e es IH]; intros w; simpl.
  - unfold ret. rewrite app_nil_r. by destruct w.
  - unfold bind at 1. rewrite IH. simpl. by rewrite <- app_assoc.
Qed.

Lemma cache_addAll_run (cache : string) (paths : list string) (w : World) :
  cache_addAll cache paths w =
  let fetches := map (fun p => EFetch (url (request_of_path p))) paths in
  match mapM addAll_fetch (map request_of_path paths) with
  | Some entries =>
      (Ok tt,
       mkWorld (storage_put_all cache entries (caches w)) (heap w)
         (skipWaitingFlag w) (clients w)
         (trace w ++ fetches ++ map (fun e => ECachePut cache (fst e)) entries)
         (pending w))
  | None => (Throw, set_trace (trace w ++ fetches) w)
  end.
Proof.
  unfold cache_addAll, bind. rewrite forM_emit, map_map.
  destruct (mapM addAll_fetch (map request_of_path paths)) as [entries|]; [|done].
  rewrite forM_put. simpl. by rewrite <- app_assoc.
Qed.

Lemma on_install_run (w : World) :
  on_install w =
  let fetches := map (fun p => EFetch (url (request_of_path p))) APP_SHELL in
  match mapM addAll_fetch (map request_of_path APP_SHELL) with
  | Some entries =>
      (Ok tt,
       mkWorld (storage_put_all APP_SHELL_CACHE entries (opened APP_SHELL_CACHE (caches w)))
         (heap w) true (clients w)
         (trace w ++ [ESkipWaiting; ECachesOpen APP_SHELL_CACHE] ++ fetches ++
          map (fun e => ECachePut APP_SHELL_CACHE (fst e)) entries)
         (pending w))
  | None =>
      (Throw,
       mkWorld (opened APP_SHELL_CACHE (caches w)) (heap w) true (clients w)
         (trace w ++ [ESkipWaiting; ECachesOpen APP_SHELL_CACHE] ++ fetches)
         (pending w))
  end.
Proof.
  unfold on_install.
  unfold bind at 1, skipWaiting, bind at 1, emit at 1.
  unfold bind at 1, caches_open, bind at 1, emit at 1.
  unfold opened. cbv zeta.
  destruct (storage_has (caches w) APP_SHELL_CACHE) eqn:Hhas; cbn [caches set_trace set_skipWaitingFlag];
    rewrite Hhas; rewrite cache_addAll_run; cbv zeta;
    destruct (mapM addAll_fetch (map request_of_path APP_SHELL)) as [entries|];
    unfold set_trace, set_skipWaitingFlag, set_caches;
    cbn [caches heap skipWaitingFlag clients trace pending];
    by rewrite <- !app_assoc.
Qed.

Lemma append_inv_head (s a b : string) : s +:+ a = s +:+ b → a = b.
Proof.
  induction s as [|c s IH]; [done|].
  change (String c (s +:+ a) = String c (s +:+ b) → a = b).
  intros [= H]. by apply IH.
Qed.

Lemma append_nil_r (s : string) : s +:+ EmptyString = s.
Proof.
  induction s as [|c s IH]; [done|].
  change (String c (s +:+ EmptyString) = String c s). by rewrite IH.
Qed.

Lemma url_of_path_inj (p q : string) :
  url (request_of_path p) = url (request_of_path q) → p = q.
Proof.
  unfold url, request_of_path. cbn [origin pathname search].
  rewrite !append_nil_r. apply append_inv_head.
Qed.

Lemma generation_put_all cs name entries :
  storage_has cs name = true →
  generation (storage_put_all name entries cs) name =
  foldl (fun m e => <[fst e := snd e]> m) (generation cs name) entries.
Proof.
  revert cs. induction entries as [|e es IH]; intros cs Hhas; simpl; [done|].
  rewrite IH.
  - by rewrite generation_put_same.
  - unfold storage_has, storage_put in *. rewrite existsb_exists in *.
    destruct Hhas as (nc & Hin & Hnc). apply String.eqb_eq in Hnc.
    exists (if String.eqb (fst nc) name
            then (fst nc, <[fst e := snd e]> (snd nc)) else nc).
    split.
    + apply in_map_iff. by exists nc.
    + destruct (String.eqb (fst nc) name); simpl; by apply String.eqb_eq.
Qed.

(** C2, as the code has it. Shell population at install time is all or
    nothing ([cache.addAll]): when every shell path is fetched with an ok
    response that is not a 206, the install succeeds and each response is
    stored into the shell generation; when the fetch of any one path
    fails, or answers with a status that is not ok, or with a 206, the
    install is rejected and no generation gains or loses an entry, the
    paths that were fetched successfully included. *)
Theorem install_all_or_nothing (w : World) :
  ((∀ p, p ∈ APP_SHELL →
      ∃ r, network (request_of_path p) = Some r ∧
           ok r = true ∧ partial_content r = false) →
   fst (on_install w) = Ok tt ∧
   ∀ p, p ∈ APP_SHELL →
     generation (caches (snd (on_install w))) APP_SHELL_CACHE
       !! url (request_of_path p) = network (request_of_path p)) ∧
  ((∃ p, p ∈ APP_SHELL ∧
      (network (request_of_path p) = None ∨
       ∃ r, network (request_of_path p) = Some r ∧
            (ok r = false ∨ partial_content r = true))) →
   fst (on_install w) = Throw ∧
   ∀ g, generation (caches (snd (on_install w))) g = generation (caches w) g).
Proof.
  rewrite on_install_run. cbv zeta. split.
  - intros Hall.
    destruct (Hall "/") as (r1 & H1 & Hok1 & Hp1); [set_solver|].
    destruct (Hall "/manifest.json") as (r2 & H2 & Hok2 & Hp2); [set_solver|].
    destruct (Hall "/offline.html") as (r3 & H3 & Hok3 & Hp3); [set_solver|].
    assert (Hm : mapM addAll_fetch (map request_of_path APP_SHELL) =
                 Some [(url (request_of_path "/"), r1);
                       (url (request_of_path "/manifest.json"), r2);
                       (url (request_of_path "/offline.html"), r3)]).
    { apply mapM_Some. unfold APP_SHELL. simpl map.
      repeat constructor; unfold addAll_fetch.
      - by rewrite H1, Hok1, Hp1.
      - by rewrite H2, Hok2, Hp2.
      - by rewrite H3, Hok3, Hp3. }
    rewrite Hm. split; [done|].
    intros p Hp. cbn [snd caches].
    rewrite generation_put_all by apply storage_has_opened.
    cbn [foldl fst snd].
    assert (H12 : url (request_of_path "/") ≠ url (request_of_path "/manifest.json"))
      by (intros H%url_of_path_inj; discriminate).
    assert (H13 : url (request_of_path "/") ≠ url (request_of_path "/offline.html"))
      by (intros H%url_of_path_inj; discriminate).
    assert (H23 : url (request_of_path "/manifest.json") ≠ url (request_of_path "/offline.html"))
      by (intros H%url_of_path_inj; discriminate).
    unfold APP_SHELL in Hp.
    repeat (apply elem_of_cons in Hp as [->|Hp]); [ | | | by apply elem_of_nil in Hp].
    + rewrite lookup_insert_ne, lookup_insert_ne, lookup_insert_eq by done. by rewrite H1.
    + rewrite lookup_insert_ne, lookup_insert_eq by done. by rewrite H2.
    + rewrite lookup_insert_eq. by rewrite H3.
  - intros (p & Hp & Hfail).
    assert (Hm : mapM addAll_fetch (map request_of_path APP_SHELL) = None).
    { apply mapM_None, Exists_exists. exists (request_of_path p). split.
      - apply list_elem_of_fmap. by exists p.
      - unfold addAll_fetch. destruct Hfail as [->|(r & -> & [->| ->])]; [done..|].
        by rewrite andb_false_r. }
    rewrite Hm. split; [done|].
    intros g. cbn [snd caches]. apply generation_opened.
Qed.

(** C10. Whatever the world was before (whether or not a SKIP_WAITING
    message was ever handled), the install handler calls [skipWaiting]
    first: the call precedes opening the shell cache and every fetch of
    the population, and the skip-waiting flag is set afterwards. *)
Theorem install_skipWaiting_first (w : World) :
  skipWaitingFlag (snd (on_install w)) = true ∧
  ∃ rest,
    trace (snd (on_install w)) =
    (trace w ++
     ESkipWaiting :: ECachesOpen APP_SHELL_CACHE ::
     map (fun p => EFetch (url (request_of_path p))) APP_SHELL ++ rest)%list.
Proof.
  rewrite on_install_run. cbv zeta.
  destruct (mapM addAll_fetch (map request_of_path APP_SHELL)) as [entries|].
  - split; [done|]. by eexists.
  - split; [done|]. exists []. cbn [snd trace]. by rewrite app_nil_r.
Qed.

(** ** Activate *)

Lemma filter_ext_elem {A} (P Q : A → Prop)
    `{!∀ x, Decision (P x), !∀ x, Decision (Q x)} (l : list A) :
  (∀ x, x ∈ l → (P x ↔ Q x)) → filter P l = filter Q l.
Proof.
  induction l as [|a l IH]; intros Hext; [done|].
  rewrite !filter_cons.
  rewrite IH by (intros x Hx; apply Hext; by right).
  apply decide_ext, Hext. by left.
Qed.

Lemma filter_all {A} (P : A → Prop) `{!∀ x, Decision (P x)} (l : list A) :
  (∀ x, P x) → filter P l = l.
Proof.
  intros HP. induction l as [|a l IH]; [done|].
  by rewrite filter_cons_True, IH.
Qed.

Lemma filter_fst_fmap (P : string → Prop) `{!∀ x, Decision (P x)}
    (cs : list (string * gmap string Response)) :
  map fst (filter (fun nc => P (fst nc)) cs) = filter P (map fst cs).
Proof.
  induction cs as [|nc cs IH]; [done|].
  simpl map. rewrite !filter_cons.
  destruct (decide (P (fst nc))); simpl; by rewrite IH.
Qed.

Lemma forM_delete (keys : list string) (w : World) :
  forM keys (fun key =>
    if negb (array_includes [APP_SHELL_CACHE; RUNTIME_CACHE] key)
    then caches_delete key
    else ret tt) w =
  (Ok tt,
   mkWorld (filter (fun nc => ¬ (fst nc ∈ keys ∧ stale (fst nc))) (caches w))
     (heap w) (skipWaitingFlag w) (clients w)
     (trace w ++ map ECachesDelete (filter stale keys)) (pending w)).
Proof.
  revert w. induction keys as [|k ks IH]; intros w.
  - simpl. unfold ret. rewrite app_nil_r, filter_all.
    + by destruct w.
    + intros nc [Hin _]. by apply elem_of_nil in Hin.
  - cbn [forM]. unfold bind at 1.
    destruct (array_includes [APP_SHELL_CACHE; RUNTIME_CACHE] k) eqn:Hk; cbn [negb].
    + unfold ret at 1. rewrite IH.
      rewrite (filter_cons_False stale) by (unfold stale; congruence). do 2 f_equal.
      apply list_filter_iff. intros nc. rewrite elem_of_cons. unfold stale.
      split.
      * intros Hn [[Heq|Hin] Hst]; [congruence | by apply Hn].
      * intros Hn [Hin Hst]. apply Hn. by split; [right|].
    + unfold caches_delete, bind, emit at 1. rewrite IH.
      rewrite (filter_cons_True stale) by done.
      unfold set_caches, set_trace, storage_delete.
      cbn [caches heap skipWaitingFlag clients trace pending].
      rewrite list_filter_filter. simpl map. rewrite <- app_assoc. do 2 f_equal.
      apply list_filter_iff. intros nc. rewrite elem_of_cons. unfold stale.
      split.
      * intros [Hn Hne] [[Heq|Hin] Hst]; [by apply Hne | by apply Hn].
      * intros Hn. split.
        -- intros [Hin Hst]. apply Hn. by split; [right|].
        -- intros Heq. apply Hn. split; [by left | by rewrite Heq].
Qed.

Lemma on_activate_run (w : World) :
  on_activate w =
  (Ok tt,
   mkWorld (reclaimed (caches w)) (heap w) (skipWaitingFlag w) (clients w)
     (trace w ++ [ECachesKeys; EClientsClaim] ++
      map ECachesDelete (filter stale (map fst (caches w)))) (pending w)).
Proof.
  unfold on_activate, bind, caches_keys, clients_claim, emit, bind.
  rewrite forM_delete. unfold set_trace. cbn [caches heap skipWaitingFlag clients trace pending].
  rewrite <- !app_assoc. do 2 f_equal. unfold reclaimed.
  f_equal. apply filter_ext_elem. intros nc Hnc.
  assert (fst nc ∈ map fst (caches w)) by (apply list_elem_of_fmap; by exists nc).
  tauto.
Qed.

Lemma generation_reclaimed cs g :
  ¬ stale g → generation (reclaimed cs) g = generation cs g.
Proof.
  intros Hg. unfold reclaimed. induction cs as [|[n c] cs IH]; [done|].
  destruct (decide (stale n)) as [Hn|Hn].
  - rewrite filter_cons_False by (intros H; by apply H).
    rewrite IH. cbn [generation].
    destruct (String.eqb n g) eqn:E; [|done].
    apply String.eqb_eq in E. congruence.
  - rewrite filter_cons_True by done. cbn [generation]. by rewrite IH.
Qed.

Lemma reclaimed_idemp cs : reclaimed (reclaimed cs) = reclaimed cs.
Proof. unfold reclaimed. by apply list_filter_filter_l. Qed.

Lemma kept_names_not_stale : ¬ stale APP_SHELL_CACHE ∧ ¬ stale RUNTIME_CACHE.
Proof. unfold stale. split; by vm_compute. Qed.

Lemma other_name_stale (old : string) :
  old ≠ APP_SHELL_CACHE → old ≠ RUNTIME_CACHE → stale old.
Proof.
  intros H1 H2. unfold stale, array_includes. simpl.
  apply String.eqb_neq in H1, H2. by rewrite H1, H2.
Qed.

(** C5. With the storage holding exactly the shell cache, the runtime cache
    and one cache of another name, the activate handler deletes that one
    cache and nothing else; the shell and runtime generations keep their
    entries; a second activation deletes nothing and leaves the storage as
    it is. *)
Theorem activate_reclaims_stale (w : World) (old : string) :
  old ≠ APP_SHELL_CACHE →
  old ≠ RUNTIME_CACHE →
  map fst (caches w) ≡ₚ [APP_SHELL_CACHE; RUNTIME_CACHE; old] →
  let w1 := snd (on_activate w) in
  let w2 := snd (on_activate w1) in
  map fst (caches w1) ≡ₚ [APP_SHELL_CACHE; RUNTIME_CACHE] ∧
  generation (caches w1) APP_SHELL_CACHE = generation (caches w) APP_SHELL_CACHE ∧
  generation (caches w1) RUNTIME_CACHE = generation (caches w) RUNTIME_CACHE ∧
  trace w1 = (trace w ++ [ECachesKeys; EClientsClaim; ECachesDelete old])%list ∧
  caches w2 = caches w1 ∧
  trace w2 = (trace w1 ++ [ECachesKeys; EClientsClaim])%list.
Proof.
  intros Hs Hr Hperm. cbv zeta. rewrite !on_activate_run. cbn [snd caches trace].
  destruct kept_names_not_stale as [Hks Hkr].
  pose proof (other_name_stale old Hs Hr) as Hold.
  assert (Hkept : map fst (reclaimed (caches w)) ≡ₚ [APP_SHELL_CACHE; RUNTIME_CACHE]).
  { unfold reclaimed.
    pose proof (filter_fst_fmap (fun n => ¬ stale n) (caches w)) as Hf.
    cbn beta in Hf. rewrite Hf, Hperm.
    rewrite filter_cons_True by done. rewrite filter_cons_True by done.
    rewrite filter_cons_False by (by intros H; apply H). done. }
  assert (Hdel : filter stale (map fst (caches w)) = [old]).
  { apply Permutation_singleton_r. rewrite Hperm.
    rewrite filter_cons_False by done. rewrite filter_cons_False by done.
    by rewrite filter_cons_True by done. }
  assert (Hdel2 : filter stale (map fst (reclaimed (caches w))) = []).
  { apply Permutation_nil_r. rewrite Hkept.
    rewrite filter_cons_False by done. by rewrite filter_cons_False by done. }
  split_and!.
  - exact Hkept.
  - by apply generation_reclaimed.
  - by apply generation_reclaimed.
  - by rewrite Hdel.
  - apply reclaimed_idemp.
  - rewrite Hdel2. simpl map. by rewrite app_nil_r.
Qed.

(** ** More on the classifier *)

Lemma prefix_inv (sub s : string) :
  String.prefix sub s = true → ∃ post, s = sub +:+ post.
Proof.
  revert s. induction sub as [|a sub IH]; intros s Hp.
  - by exists s.
  - destruct s as [|b s]; [done|]. simpl in Hp.
    destruct (Ascii.ascii_dec a b) as [->|]; [|done].
    destruct (IH s Hp) as [post ->]. by exists post.
Qed.

Lemma includes_inv (s sub : string) :
  includes s sub = true → ∃ pre post, s = pre +:+ sub +:+ post.
Proof.
  induction s as [|a s IH]; rewrite includes_unfold; intros H;
    apply orb_true_iff in H as [H|H].
  - apply prefix_inv in H as [post ->]. by exists EmptyString, post.
  - done.
  - apply prefix_inv in H as [post H]. by exists EmptyString, post.
  - destruct (IH H) as (pre & post & ->). by exists (String a pre), post.
Qed.

(** X1. The fetch handler stays out of a request exactly when its method is
    not GET or its origin is bypassed; the world is then left as it was
    (no lookup, no fetch, no write). Every other request is answered by
    the worker: served or failed. *)
Theorem not_intercepted_iff (req : Request) (w : World) :
  (method req ≠ "GET" ∨ bypassed req = true ↔ classify req = PASS_THROUGH) ∧
  (classify req = PASS_THROUGH → on_fetch req w = (NotIntercepted, w)) ∧
  (fst (on_fetch req w) = NotIntercepted → classify req = PASS_THROUGH).
Proof.
  split_and!.
  - unfold classify.
    destruct (String.eqb (method req) "GET") eqn:Hget; cbn [negb].
    + apply String.eqb_eq in Hget.
      destruct (bypassed req).
      * split; [done | by right].
      * split; [intros [?|?]; done|].
        repeat match goal with |- context [if ?b then _ else _] => destruct b end; done.
    + apply String.eqb_neq in Hget. split; [done | by left].
  - unfold on_fetch. by intros ->.
  - unfold on_fetch, respondWith. destruct (classify req); [done | | |]; cbn.
    + destruct (networkFirst req w) as [[[| |]|] ?]; done.
    + destruct (cacheFirst req w) as [[[| |]|] ?]; done.
    + destruct (networkWithFallback req w) as [[[| |]|] ?]; done.
Qed.

(** X2. A request is bypassed only for a reason: its origin is of the form
    pre ++ marker ++ post for one of the three markers. Together with the
    other direction, the bypass test is exactly containment. *)
Theorem bypassed_iff_contains (req : Request) :
  bypassed req = true ↔
  ∃ marker pre post,
    marker ∈ ["googleapis"; "firebase"; "gstatic"] ∧
    origin req = pre +:+ marker +:+ post.
Proof.
  unfold bypassed. rewrite !orb_true_iff. split.
  - intros [[H|H]|H]; apply includes_inv in H as (pre & post & H).
    + exists "googleapis", pre, post. split; [by apply array_includes_elem | done].
    + exists "firebase", pre, post. split; [by apply array_includes_elem | done].
    + exists "gstatic", pre, post. split; [by apply array_includes_elem | done].
  - intros (marker & pre & post & Hm & ->).
    repeat (apply elem_of_cons in Hm as [->|Hm]); [ | | | by apply elem_of_nil in Hm].
    + left; left. apply includes_app.
    + left; right. apply includes_app.
    + right. apply includes_app.
Qed.

(** X3. Which requests go to which of the two caching policies that are
    not the shell's: a GET request to an origin that is not bypassed, with
    a path outside the shell list, is STATIC_ASSET exactly when its
    destination is image, font or style, and DYNAMIC_RESOURCE exactly when
    it is anything else (a document or a script, say). The extra test for
    the root path adds nothing, "/" being in the shell list. *)
Theorem static_or_dynamic_iff (req : Request) :
  (classify req = STATIC_ASSET ↔
   method req = "GET" ∧ bypassed req = false ∧ (pathname req ∉ APP_SHELL) ∧
   destination req ∈ ["image"; "font"; "style"]) ∧
  (classify req = DYNAMIC_RESOURCE ↔
   method req = "GET" ∧ bypassed req = false ∧ (pathname req ∉ APP_SHELL) ∧
   (destination req ∉ ["image"; "font"; "style"])).
Proof.
  assert (Hkind : String.eqb (destination req) "image" ||
                  String.eqb (destination req) "font" ||
                  String.eqb (destination req) "style" = true ↔
                  destination req ∈ ["image"; "font"; "style"]).
  { rewrite <- (array_includes_elem ["image"; "font"; "style"]).
    unfold array_includes. simpl. by rewrite orb_false_r, orb_assoc. }
  assert (Hroot : array_includes APP_SHELL (pathname req) || String.eqb (pathname req) "/" =
                  array_includes APP_SHELL (pathname req)).
  { unfold array_includes, APP_SHELL. simpl.
    by destruct (String.eqb (pathname req) "/"); rewrite ?orb_true_r, ?orb_false_r. }
  unfold classify. rewrite Hroot.
  destruct (String.eqb (method req) "GET") eqn:Hget; cbn [negb].
  2: { apply String.eqb_neq in Hget. split; split; (done || by intros [? _]). }
  apply String.eqb_eq in Hget.
  destruct (bypassed req).
  { split; split; (done || by intros (_ & ? & _)). }
  destruct (array_includes APP_SHELL (pathname req)) eqn:Hshell.
  { apply array_includes_elem in Hshell.
    split; split; (done || by intros (_ & _ & ? & _)). }
  assert (pathname req ∉ APP_SHELL).
  { intros Hin%array_includes_elem. congruence. }
  destruct (String.eqb (destination req) "image" ||
            String.eqb (destination req) "font" ||
            String.eqb (destination req) "style").
  - assert (destination req ∈ ["image"; "font"; "style"]) by (by apply Hkind).
    split; split; (done || by intros (_ & _ & _ & ?)).
  - assert (destination req ∉ ["image"; "font"; "style"]).
    { intros Hin%Hkind. congruence. }
    split; split; (done || by intros (_ & _ & _ & ?)).
Qed.

(** ** More on the strategies *)

(** Every way a request can go through the fetch handler: the policy, the
    answer of the network and what the caches hold. *)
Ltac fetch_cases req w :=
  unfold on_fetch, respondWith;
  let Hc := fresh "Hc" in
  let Hnet := fresh "Hnet" in
  let Hm := fresh "Hm" in
  let R := fresh "R" in
  destruct (classify req) eqn:Hc;
  [ idtac
  | destruct (network req) as [R|] eqn:Hnet;
    [ rewrite (networkFirst_online _ R) by done
    | rewrite networkFirst_offline by done;
      destruct (storage_match (caches w) (url req)) eqn:Hm;
      [ | destruct (storage_match (caches w) offline_url) ] ]
  | destruct (storage_match (caches w) (url req)) eqn:Hm;
    [ erewrite cacheFirst_hit by done
    | destruct (network req) as [R|] eqn:Hnet;
      [ rewrite (cacheFirst_miss_online _ R) by done
      | rewrite cacheFirst_miss_offline by done ] ]
  | destruct (network req) as [R|] eqn:Hnet;
    [ rewrite (networkWithFallback_online _ R) by done
    | rewrite networkWithFallback_offline by done;
      destruct (storage_match (caches w) (url req)) eqn:Hm ] ].

(** X4. A STATIC_ASSET request that no cache holds and that the network
    cannot answer fails: [cacheFirst] has no fallback, the offline document
    is not looked up whether it is stored or not, and nothing is written. *)
Theorem cacheFirst_miss_offline_fails (req : Request) (w : World) :
  classify req = STATIC_ASSET →
  storage_match (caches w) (url req) = None →
  network req = None →
  on_fetch req w =
  (Failed, set_trace (trace w ++ [ECachesMatch (url req); EFetch (url req)]) w).
Proof.
  intros Hc Hm Hnet. rewrite on_fetch_static by done. unfold respondWith.
  by rewrite cacheFirst_miss_offline.
Qed.


(** X6. The two network-first policies go to the network before anything
    else, whatever the caches hold: for a SHELL_RESOURCE or
    DYNAMIC_RESOURCE request the first call made is the fetch of the
    request. *)
Theorem network_tried_first (req : Request) (w : World) :
  classify req = SHELL_RESOURCE ∨ classify req = DYNAMIC_RESOURCE →
  ∃ rest, trace (snd (on_fetch req w)) = (trace w ++ EFetch (url req) :: rest)%list.
Proof.
  intros Hpol. fetch_cases req w; try (by destruct Hpol);
    cbn [snd issued handed set_trace trace]; by eexists.
Qed.

Lemma settle_idle (w : World) : pending w = [] → caches (settle w) = caches w.
Proof. intros Hp. unfold settle. cbn [caches set_caches set_pending]. by rewrite Hp. Qed.

(** X7. A fetch changes at most one cache entry: the one filed under the
    request's own URL in the generation of its policy (the shell
    generation for SHELL_RESOURCE, the runtime generation otherwise).
    Every other entry of every generation is as before, when the handler
    returns and also, no other write being in flight, after the write the
    handler issued has landed. *)
Theorem on_fetch_frame (req : Request) (w : World) (g u : string) :
  (g, u) ≠ (match classify req with
            | SHELL_RESOURCE => APP_SHELL_CACHE
            | _ => RUNTIME_CACHE
            end, url req) →
  generation (caches (snd (on_fetch req w))) g !! u = generation (caches w) g !! u ∧
  (pending w = [] →
   generation (caches (settle (snd (on_fetch req w)))) g !! u =
   generation (caches w) g !! u).
Proof.
  fetch_cases req w; intros Hne; cbn [snd]; (split; [|intros Hp]);
    rewrite ?issued_generation; try done;
    try (by rewrite settle_idle);
    first [ by apply settle_issued_frame
          | by apply (settle_issued_frame _ _ _ (set_trace _ w)) ].
Qed.

(** X8. Whatever the policy and whatever happens on the way, a response
    that the worker serves is handed over with its body unread: the copy
    written to a cache is always read from a clone. *)
Theorem served_body_unread (req : Request) (w w' : World) (o : nat) :
  on_fetch req w = (Served o, w') →
  ∃ r, heap w' !! o = Some (mkObject r false).
Proof.
  fetch_cases req w; intros [= <- <-]; eexists;
    first [ apply issued_heap_fresh
          | apply handed_heap
          | exact (issued_heap_fresh _ _ _ (set_trace _ w)) ].
Qed.

(** ** More on activate, install and sync *)

Lemma not_stale_iff (n : string) :
  ¬ stale n ↔ n = APP_SHELL_CACHE ∨ n = RUNTIME_CACHE.
Proof.
  unfold stale. rewrite not_false_iff_true, array_includes_elem.
  rewrite !elem_of_cons, elem_of_nil. tauto.
Qed.

Lemma filter_none {A} (P : A → Prop) `{!∀ x, Decision (P x)} (l : list A) :
  (∀ x, x ∈ l → ¬ P x) → filter P l = [].
Proof.
  induction l as [|a l IH]; intros HP; [done|].
  rewrite filter_cons_False by (apply HP; by left).
  apply IH. intros x Hx. apply HP. by right.
Qed.

(** X9. Activation on any storage: it succeeds; the caches left are those
    of the storage that are called by the shell name or the runtime name,
    so no cache of another name survives; the shell and the runtime
    generation keep their entries; the Response objects and the
    skip-waiting flag are not touched; and activating again deletes
    nothing: the second run only adds its two calls to the trace. *)
Theorem activate_keeps_expected_only (w : World) :
  let w1 := snd (on_activate w) in
  fst (on_activate w) = Ok tt ∧
  (∀ n, n ∈ map fst (caches w1) ↔
        n ∈ map fst (caches w) ∧ (n = APP_SHELL_CACHE ∨ n = RUNTIME_CACHE)) ∧
  generation (caches w1) APP_SHELL_CACHE = generation (caches w) APP_SHELL_CACHE ∧
  generation (caches w1) RUNTIME_CACHE = generation (caches w) RUNTIME_CACHE ∧
  heap w1 = heap w ∧
  skipWaitingFlag w1 = skipWaitingFlag w ∧
  on_activate w1 = (Ok tt, set_trace (trace w1 ++ [ECachesKeys; EClientsClaim]) w1).
Proof.
  cbv zeta. rewrite !on_activate_run. cbn [fst snd caches heap skipWaitingFlag trace].
  destruct kept_names_not_stale as [Hks Hkr].
  pose proof (filter_fst_fmap (fun n => ¬ stale n) (caches w)) as Hf.
  cbn beta in Hf. fold (reclaimed (caches w)) in Hf.
  split_and!; try done.
  - intros n. rewrite Hf, list_elem_of_filter, not_stale_iff. tauto.
  - by apply generation_reclaimed.
  - by apply generation_reclaimed.
  - rewrite reclaimed_idemp. rewrite Hf.
    rewrite (filter_none stale (filter (fun n => ¬ stale n) (map fst (caches w)))).
    + unfold set_trace. cbn [caches heap skipWaitingFlag clients trace pending map].
      by rewrite app_nil_r.
    + intros n Hn%list_elem_of_filter. tauto.
Qed.

Lemma generation_put_all_other cs name entries g :
  g ≠ name → generation (storage_put_all name entries cs) g = generation cs g.
Proof.
  intros Hg. revert cs. induction entries as [|e es IH]; intros cs; simpl; [done|].
  rewrite IH. by apply generation_put_other.
Qed.

Lemma foldl_insert_lookup_ne (entries : list (string * Response))
    (m : gmap string Response) (u : string) :
  u ∉ map fst entries →
  foldl (fun m e => <[fst e := snd e]> m) m entries !! u = m !! u.
Proof.
  revert m. induction entries as [|e es IH]; intros m Hu; simpl; [done|].
  simpl in Hu. apply not_elem_of_cons in Hu as [Hne Hu].
  rewrite IH by done. by apply lookup_insert_ne.
Qed.

Lemma addAll_entries_keys (reqs : list Request) (entries : list (string * Response)) :
  mapM addAll_fetch reqs = Some entries → map fst entries = map url reqs.
Proof.
  intros H%mapM_Some. induction H as [|req e reqs es Hf _ IH]; [done|].
  simpl. rewrite IH. f_equal. unfold addAll_fetch in Hf.
  destruct (network req) as [r|]; [|done].
  destruct (ok r && negb (partial_content r)); [|done].
  by injection Hf as <-.
Qed.

(** X10. The install handler only ever writes the keys of the three shell
    paths, and only in the shell generation: every other entry of the
    shell generation and every entry of the other generations is as
    before, whether the install succeeds or is rejected. *)
Theorem install_keeps_other_entries (w : World) (g u : string) :
  g ≠ APP_SHELL_CACHE ∨ u ∉ map (fun p => url (request_of_path p)) APP_SHELL →
  generation (caches (snd (on_install w))) g !! u = generation (caches w) g !! u.
Proof.
  intros Hother. rewrite on_install_run. cbv zeta.
  destruct (mapM addAll_fetch (map request_of_path APP_SHELL)) as [entries|] eqn:Hm;
    cbn [snd caches].
  2: { by rewrite generation_opened. }
  destruct (decide (g = APP_SHELL_CACHE)) as [->|Hg].
  - destruct Hother as [?|Hu]; [done|].
    rewrite generation_put_all by apply storage_has_opened.
    rewrite foldl_insert_lookup_ne, generation_opened; [done|].
    rewrite (addAll_entries_keys _ _ Hm), map_map. exact Hu.
  - by rewrite generation_put_all_other, generation_opened.
Qed.

Lemma storage_put_absent cs name u r :
  storage_has cs name = false → storage_put name u r cs = cs.
Proof.
  induction cs as [|[n c] cs IH]; simpl; [done|].
  intros [Hn Hcs]%orb_false_iff. by rewrite Hn, IH.
Qed.

Lemma storage_put_all_last cs name entries m :
  storage_has cs name = false →
  storage_put_all name entries (cs ++ [(name, m)])%list =
  (cs ++ [(name, foldl (fun m e => <[fst e := snd e]> m) m entries)])%list.
Proof.
  intros Hcs. revert m. induction entries as [|e es IH]; intros m; [done|].
  cbn [storage_put_all foldl].
  assert (Hstep : storage_put name (fst e) (snd e) (cs ++ [(name, m)])%list =
                  (cs ++ [(name, <[fst e := snd e]> m)])%list).
  { unfold storage_put. rewrite map_app.
    fold (storage_put name (fst e) (snd e) cs). rewrite storage_put_absent by done.
    simpl. by rewrite String.eqb_refl. }
  rewrite Hstep. apply IH.
Qed.

Lemma reclaimed_none cs :
  storage_has cs APP_SHELL_CACHE = false →
  storage_has cs RUNTIME_CACHE = false →
  reclaimed cs = [].
Proof.
  intros Hs Hr. unfold reclaimed. apply filter_none.
  intros nc Hnc Hkeep. apply Hkeep. apply not_stale_iff in Hkeep as [Hn|Hn].
  - assert (storage_has cs APP_SHELL_CACHE = true); [|congruence].
    unfold storage_has. apply existsb_exists. exists nc.
    split; [by apply list_elem_of_In | by apply String.eqb_eq].
  - assert (storage_has cs RUNTIME_CACHE = true); [|congruence].
    unfold storage_has. apply existsb_exists. exists nc.
    split; [by apply list_elem_of_In | by apply String.eqb_eq].
Qed.

Lemma install_activate_storage (w : World) (r1 r2 r3 : Response) :
  storage_has (caches w) APP_SHELL_CACHE = false →
  storage_has (caches w) RUNTIME_CACHE = false →
  network (request_of_path "/") = Some r1 →
  ok r1 = true → partial_content r1 = false →
  network (request_of_path "/manifest.json") = Some r2 →
  ok r2 = true → partial_content r2 = false →
  network (request_of_path "/offline.html") = Some r3 →
  ok r3 = true → partial_content r3 = false →
  fst (on_install w) = Ok tt ∧
  caches (snd (on_activate (snd (on_install w)))) =
  [(APP_SHELL_CACHE,
    <[url (request_of_path "/offline.html") := r3]>
      (<[url (request_of_path "/manifest.json") := r2]>
         (<[url (request_of_path "/") := r1]> ∅)))].
Proof.
  intros Hs Hr H1 Hok1 Hp1 H2 Hok2 Hp2 H3 Hok3 Hp3.
  rewrite on_activate_run, on_install_run. cbv zeta.
  assert (Hm : mapM addAll_fetch (map request_of_path APP_SHELL) =
               Some [(url (request_of_path "/"), r1);
                     (url (request_of_path "/manifest.json"), r2);
                     (url (request_of_path "/offline.html"), r3)]).
  { apply mapM_Some. unfold APP_SHELL. simpl map.
    repeat constructor; unfold addAll_fetch.
    - by rewrite H1, Hok1, Hp1.
    - by rewrite H2, Hok2, Hp2.
    - by rewrite H3, Hok3, Hp3. }
  rewrite Hm. split; [done|]. cbn [snd caches].
  unfold opened. rewrite Hs. rewrite storage_put_all_last by done.
  unfold reclaimed. rewrite filter_app. fold (reclaimed (caches w)).
  rewrite reclaimed_none by done.
  rewrite filter_cons_True by (apply kept_names_not_stale). done.
Qed.

(** X11. A first install of this version followed by activation. When the
    storage has no cache under this version's two names and the three
    shell paths are fetched with ok responses, none a 206, then after the install and
    the activation the storage is exactly one cache, the shell cache,
    holding exactly the three fetched documents: every cache that was
    there before is gone. *)
Theorem fresh_install_then_activate (w : World) (r1 r2 r3 : Response) :
  storage_has (caches w) APP_SHELL_CACHE = false →
  storage_has (caches w) RUNTIME_CACHE = false →
  network (request_of_path "/") = Some r1 →
  ok r1 = true → partial_content r1 = false →
  network (request_of_path "/manifest.json") = Some r2 →
  ok r2 = true → partial_content r2 = false →
  network (request_of_path "/offline.html") = Some r3 →
  ok r3 = true → partial_content r3 = false →
  fst (on_install w) = Ok tt ∧
  caches (snd (on_activate (snd (on_install w)))) =
  [(APP_SHELL_CACHE,
    <[url (request_of_path "/offline.html") := r3]>
      (<[url (request_of_path "/manifest.json") := r2]>
         (<[url (request_of_path "/") := r1]> ∅)))].
Proof. apply install_activate_storage. Qed.

(** X12. The sync handler: for the tag "teachmate-sync" every client gets
    the message SYNC_NOW, once each and in the order of the client list,
    and nothing else happens (no fetch, no cache call, no change to the
    caches); with no client there is no effect at all; for any other tag
    the world is left as it was. *)
Theorem sync_notifies_each_client (tag : string) (w : World) :
  on_sync tag w =
  (Ok tt,
   if String.eqb tag "teachmate-sync"
   then set_trace (trace w ++ map (fun c => EPostMessage c "SYNC_NOW") (clients w)) w
   else w).
Proof.
  unfold on_sync. destruct (String.eqb tag "teachmate-sync"); [|done].
  unfold notifyClientsToSync. apply forM_emit.
Qed.

(** ** Lookups after a write *)


Lemma storage_match_put_ne cs name u u' R :
  u' ≠ u → storage_match (storage_put name u R cs) u' = storage_match cs u'.
Proof.
  intros Hne. induction cs as [|[n c] cs IH]; simpl; [done|].
  destruct (String.eqb n name); simpl; rewrite ?lookup_insert_ne by done;
    by rewrite IH.
Qed.




End Worker.

(** ** The claims at concrete inputs *)

Lemma classify_shell_priority_witness :
  destination manifest_as_image = "image" ∧
  classify manifest_as_image = SHELL_RESOURCE ∧
  on_fetch site net_down manifest_as_image =
  respondWith (networkFirst site net_down manifest_as_image).
Proof.
  split; [reflexivity|].
  apply (classify_shell_priority site net_down manifest_as_image).
  - reflexivity.
  - reflexivity.
  - apply array_includes_elem. reflexivity.
Defined.

Lemma bypass_by_substring_witness :
  classify lookalike_request = PASS_THROUGH ∧
  on_fetch site net_shell lookalike_request installed_world =
  (NotIntercepted, installed_world).
Proof.
  apply (bypass_by_substring site net_shell lookalike_request
           "https://my" "firebase" "clone.example.com" installed_world).
  - apply array_includes_elem. reflexivity.
  - reflexivity.
Defined.

Lemma cacheFirst_hit_no_network_witness :
  ∃ o w', on_fetch site net_shell logo_request logo_cached_world = (Served o, w') ∧
          cacheFirst net_shell logo_request logo_cached_world = (Ok (JResponse o), w') ∧
          heap w' !! o = Some (mkObject logo_png false) ∧
          trace w' = (trace logo_cached_world ++ [ECachesMatch (url logo_request)])%list ∧
          caches w' = caches logo_cached_world.
Proof.
  apply (cacheFirst_hit_no_network site net_shell logo_request logo_png logo_cached_world).
  - reflexivity.
  - vm_compute. reflexivity.
Defined.







Lemma install_all_or_nothing_witness :
  (fst (on_install site net_shell empty_world) = Ok tt ∧
   ∀ p, p ∈ APP_SHELL →
     generation (caches (snd (on_install site net_shell empty_world))) APP_SHELL_CACHE
       !! url (request_of_path site p) = net_shell (request_of_path site p)) ∧
  (fst (on_install site net_partial empty_world) = Throw ∧
   ∀ g, generation (caches (snd (on_install site net_partial empty_world))) g =
        generation (caches empty_world) g).
Proof.
  split.
  - apply (install_all_or_nothing site net_shell empty_world).
    intros p Hp. unfold APP_SHELL in Hp.
    repeat (apply elem_of_cons in Hp as [->|Hp]); [ | | | by apply elem_of_nil in Hp].
    + exists index_page. split_and!; reflexivity.
    + exists manifest_doc. split_and!; reflexivity.
    + exists offline_page. split_and!; reflexivity.
  - apply (install_all_or_nothing site net_partial empty_world).
    exists "/offline.html". split.
    + apply array_includes_elem. reflexivity.
    + left. reflexivity.
Defined.

(** C2 fails on the code. The fetches of "/" and "/manifest.json" succeed
    and that of "/offline.html" fails; the install is rejected and the
    shell generation holds neither of the two fetched paths. *)
Lemma install_one_failure_blocks_all :
  net_partial (request_of_path site "/") = Some index_page ∧
  net_partial (request_of_path site "/manifest.json") = Some manifest_doc ∧
  net_partial (request_of_path site "/offline.html") = None ∧
  fst (on_install site net_partial empty_world) = Throw ∧
  generation (caches (snd (on_install site net_partial empty_world))) APP_SHELL_CACHE
    !! url (request_of_path site "/") = None ∧
  generation (caches (snd (on_install site net_partial empty_world))) APP_SHELL_CACHE
    !! url (request_of_path site "/manifest.json") = None.
Proof.
  split_and!; try reflexivity; by vm_compute.
Qed.

Lemma activate_reclaims_stale_witness :
  let w1 := snd (on_activate rollover_world) in
  let w2 := snd (on_activate w1) in
  map fst (caches w1) ≡ₚ [APP_SHELL_CACHE; RUNTIME_CACHE] ∧
  generation (caches w1) APP_SHELL_CACHE = generation (caches rollover_world) APP_SHELL_CACHE ∧
  generation (caches w1) RUNTIME_CACHE = generation (caches rollover_world) RUNTIME_CACHE ∧
  trace w1 = (trace rollover_world ++
              [ECachesKeys; EClientsClaim; ECachesDelete "teachmate-shell-v2"])%list ∧
  caches w2 = caches w1 ∧
  trace w2 = (trace w1 ++ [ECachesKeys; EClientsClaim])%list.
Proof.
  apply (activate_reclaims_stale rollover_world "teachmate-shell-v2").
  - discriminate.
  - discriminate.
  - simpl. apply Permutation_cons_append.
Defined.

(** ** The defect in [networkWithFallback] *)

(** C1 at a failing input. The network is down, no generation holds the
    request for "/api/lessons", and the offline document is stored. The
    request is DYNAMIC_RESOURCE and [networkWithFallback] fails it: the
    only lookup made is that of the request, the offline document is never
    asked for. On the same world and network, [networkFirst] serves the
    offline document for a shell request that is not cached. *)
Theorem networkWithFallback_skips_offline_document :
  classify api_request = DYNAMIC_RESOURCE ∧
  net_down api_request = None ∧
  storage_match (caches installed_world) (url api_request) = None ∧
  storage_match (caches installed_world) (offline_url site) = Some offline_page ∧
  on_fetch site net_down api_request installed_world =
    (Failed,
     set_trace [EFetch (url api_request); ECachesMatch (url api_request)] installed_world) ∧
  networkWithFallback site net_down api_request installed_world =
    (Ok JUndefined,
     set_trace [EFetch (url api_request); ECachesMatch (url api_request)] installed_world) ∧
  classify manifest_v2_request = SHELL_RESOURCE ∧
  storage_match (caches installed_world) (url manifest_v2_request) = None ∧
  ∃ o w', on_fetch site net_down manifest_v2_request installed_world = (Served o, w') ∧
          heap w' !! o = Some (mkObject offline_page false).
Proof.
  split_and!; try reflexivity; try (by vm_compute).
  eexists _, _. split; [vm_compute; reflexivity | reflexivity].
Qed.

(** ** Requests in sequence

    The network of the second request need not be that of the first. *)





(** X17. Offline readiness. After a first install of this version with
    the three shell paths fetched (ok responses, none a 206), and the
    activation, a GET request from
    the worker's own origin for one of the shell paths (no query string,
    any destination), made with the network down, is served the document
    that the install fetched for that path. *)
Theorem offline_ready_after_fresh_install (scope : string)
    (net net' : Request → option Response) (w : World) (r1 r2 r3 : Response)
    (p d : string) :
  storage_has (caches w) APP_SHELL_CACHE = false →
  storage_has (caches w) RUNTIME_CACHE = false →
  net (request_of_path scope "/") = Some r1 →
  ok r1 = true → partial_content r1 = false →
  net (request_of_path scope "/manifest.json") = Some r2 →
  ok r2 = true → partial_content r2 = false →
  net (request_of_path scope "/offline.html") = Some r3 →
  ok r3 = true → partial_content r3 = false →
  p ∈ APP_SHELL →
  bypassed (mkRequest "GET" scope p EmptyString d) = false →
  net' (mkRequest "GET" scope p EmptyString d) = None →
  ∃ o w3 r,
    on_fetch scope net' (mkRequest "GET" scope p EmptyString d)
      (snd (on_activate (snd (on_install scope net w)))) = (Served o, w3) ∧
    net (request_of_path scope p) = Some r ∧
    heap w3 !! o = Some (mkObject r false).
Proof.
  intros Hs Hr H1 Hok1 Hp1 H2 Hok2 Hp2 H3 Hok3 Hp3 Hp Hby Hdown.
  destruct (install_activate_storage scope net w r1 r2 r3) as [_ Hcaches]; try done.
  set (w2 := snd (on_activate (snd (on_install scope net w)))) in *.
  set (req := mkRequest "GET" scope p EmptyString d) in *.
  assert (Hc : classify req = SHELL_RESOURCE).
  { apply array_includes_elem in Hp. unfold classify. rewrite Hby.
    cbn [method pathname req negb String.eqb]. by rewrite Hp. }
  assert (H12 : url (request_of_path scope "/") ≠ url (request_of_path scope "/manifest.json"))
    by (intros H%url_of_path_inj; discriminate).
  assert (H13 : url (request_of_path scope "/") ≠ url (request_of_path scope "/offline.html"))
    by (intros H%url_of_path_inj; discriminate).
  assert (H23 : url (request_of_path scope "/manifest.json") ≠
                url (request_of_path scope "/offline.html"))
    by (intros H%url_of_path_inj; discriminate).
  rewrite on_fetch_shell by done. unfold respondWith.
  rewrite networkFirst_offline by done. rewrite Hcaches.
  change (url req) with (url (request_of_path scope p)).
  cbn [storage_match]. unfold APP_SHELL in Hp.
  repeat (apply elem_of_cons in Hp as [->|Hp]); [ | | | by apply elem_of_nil in Hp].
  - rewrite lookup_insert_ne, lookup_insert_ne, lookup_insert_eq by done.
    eexists _, _, r1. split_and!; [done | done | apply handed_heap].
  - rewrite lookup_insert_ne, lookup_insert_eq by done.
    eexists _, _, r2. split_and!; [done | done | apply handed_heap].
  - rewrite lookup_insert_eq.
    eexists _, _, r3. split_and!; [done | done | apply handed_heap].
Qed.

(** X18. The shell test reads the path, the cache key is the whole URL. A
    GET request for a shell path that carries a query string is still
    SHELL_RESOURCE, but its key is not one the install stored: after a
    first install (the three shell paths fetched with ok responses, none a
    206) and the activation, with the network down, it is served
    the offline document, not the document of its path. *)
Theorem shell_path_with_query_gets_offline_page (scope : string)
    (net net' : Request → option Response) (w : World) (r1 r2 r3 : Response)
    (p q d : string) :
  storage_has (caches w) APP_SHELL_CACHE = false →
  storage_has (caches w) RUNTIME_CACHE = false →
  net (request_of_path scope "/") = Some r1 →
  ok r1 = true → partial_content r1 = false →
  net (request_of_path scope "/manifest.json") = Some r2 →
  ok r2 = true → partial_content r2 = false →
  net (request_of_path scope "/offline.html") = Some r3 →
  ok r3 = true → partial_content r3 = false →
  p ∈ APP_SHELL →
  bypassed (mkRequest "GET" scope p ("?" +:+ q) d) = false →
  net' (mkRequest "GET" scope p ("?" +:+ q) d) = None →
  classify (mkRequest "GET" scope p ("?" +:+ q) d) = SHELL_RESOURCE ∧
  ∃ o w3,
    on_fetch scope net' (mkRequest "GET" scope p ("?" +:+ q) d)
      (snd (on_activate (snd (on_install scope net w)))) = (Served o, w3) ∧
    heap w3 !! o = Some (mkObject r3 false).
Proof.
  intros Hs Hr H1 Hok1 Hp1 H2 Hok2 Hp2 H3 Hok3 Hp3 Hp Hby Hdown.
  destruct (install_activate_storage scope net w r1 r2 r3) as [_ Hcaches]; try done.
  set (w2 := snd (on_activate (snd (on_install scope net w)))) in *.
  set (req := mkRequest "GET" scope p ("?" +:+ q) d) in *.
  assert (Hc : classify req = SHELL_RESOURCE).
  { pose proof Hp as Hp'. apply array_includes_elem in Hp'. unfold classify. rewrite Hby.
    cbn [method pathname req negb String.eqb]. by rewrite Hp'. }
  assert (Hkey : ∀ p', p' ∈ APP_SHELL → url (request_of_path scope p') ≠ url req).
  { intros p' Hp' Heq. unfold url, request_of_path, req in Heq.
    cbn [origin pathname search] in Heq.
    apply append_inv_head in Heq. rewrite append_nil_r in Heq.
    unfold APP_SHELL in Hp, Hp'.
    repeat (apply elem_of_cons in Hp as [->|Hp]); [ | | | by apply elem_of_nil in Hp];
      (repeat (apply elem_of_cons in Hp' as [->|Hp']); [ | | | by apply elem_of_nil in Hp']);
      simpl in Heq; discriminate. }
  assert (H13 : url (request_of_path scope "/") ≠ url (request_of_path scope "/offline.html"))
    by (intros H%url_of_path_inj; discriminate).
  assert (H23 : url (request_of_path scope "/manifest.json") ≠
                url (request_of_path scope "/offline.html"))
    by (intros H%url_of_path_inj; discriminate).
  split; [done|].
  rewrite on_fetch_shell by done. unfold respondWith.
  rewrite networkFirst_offline by done. rewrite Hcaches.
  cbn [storage_match].
  rewrite !lookup_insert_ne by (apply Hkey, array_includes_elem; reflexivity).
  rewrite lookup_empty. unfold offline_url. rewrite lookup_insert_eq.
  eexists _, _. split; [done | apply handed_heap].
Qed.

(** ** The further results at concrete inputs *)

Lemma cacheFirst_miss_offline_fails_witness :
  storage_match (caches installed_world) (offline_url site) = Some offline_page ∧
  on_fetch site net_down logo_request installed_world =
  (Failed,
   set_trace (trace installed_world ++
              [ECachesMatch (url logo_request); EFetch (url logo_request)])
     installed_world).
Proof.
  split; [by vm_compute|].
  apply (cacheFirst_miss_offline_fails site net_down logo_request installed_world).
  - reflexivity.
  - by vm_compute.
  - reflexivity.
Defined.


Lemma network_tried_first_witness :
  storage_match (caches installed_world) (url root_request) = Some index_page ∧
  ∃ rest, trace (snd (on_fetch site net_update root_request installed_world)) =
          (trace installed_world ++ EFetch (url root_request) :: rest)%list.
Proof.
  split; [by vm_compute|].
  apply (network_tried_first site net_update root_request installed_world).
  left. reflexivity.
Defined.

Lemma on_fetch_frame_witness :
  generation (caches (snd (on_fetch site net_update root_request installed_world)))
    APP_SHELL_CACHE !! "https://teachmate.app/manifest.json" =
  generation (caches installed_world) APP_SHELL_CACHE
    !! "https://teachmate.app/manifest.json" ∧
  (pending installed_world = [] →
   generation (caches (settle (snd (on_fetch site net_update root_request installed_world))))
     APP_SHELL_CACHE !! "https://teachmate.app/manifest.json" =
   generation (caches installed_world) APP_SHELL_CACHE
     !! "https://teachmate.app/manifest.json").
Proof.
  apply (on_fetch_frame site net_update root_request installed_world).
  intros H. vm_compute in H. discriminate H.
Defined.

Lemma served_body_unread_witness :
  ∃ r, heap (snd (on_fetch site net_down root_request installed_world)) !! 0 =
       Some (mkObject r false).
Proof.
  apply (served_body_unread site net_down root_request installed_world).
  vm_compute. reflexivity.
Defined.

Lemma install_keeps_other_entries_witness :
  generation (caches (snd (on_install site net_shell logo_cached_world)))
    RUNTIME_CACHE !! "https://teachmate.app/logo.png" =
  generation (caches logo_cached_world) RUNTIME_CACHE !! "https://teachmate.app/logo.png".
Proof.
  apply (install_keeps_other_entries site net_shell logo_cached_world).
  left. discriminate.
Defined.

Lemma fresh_install_then_activate_witness :
  fst (on_install site net_shell previous_version_world) = Ok tt ∧
  caches (snd (on_activate (snd (on_install site net_shell previous_version_world)))) =
  [(APP_SHELL_CACHE,
    <[url (request_of_path site "/offline.html") := offline_page]>
      (<[url (request_of_path site "/manifest.json") := manifest_doc]>
         (<[url (request_of_path site "/") := index_page]> ∅)))].
Proof.
  apply (fresh_install_then_activate site net_shell previous_version_world
           index_page manifest_doc offline_page); reflexivity.
Defined.





Lemma offline_ready_after_fresh_install_witness :
  ∃ o w3 r,
    on_fetch site net_down (mkRequest "GET" site "/" EmptyString "document")
      (snd (on_activate (snd (on_install site net_shell previous_version_world)))) =
      (Served o, w3) ∧
    net_shell (request_of_path site "/") = Some r ∧
    heap w3 !! o = Some (mkObject r false).
Proof.
  apply (offline_ready_after_fresh_install site net_shell net_down previous_version_world
           index_page manifest_doc offline_page "/" "document"); try reflexivity.
  apply array_includes_elem. reflexivity.
Defined.

Lemma shell_path_with_query_gets_offline_page_witness :
  classify (mkRequest "GET" site "/" ("?" +:+ "source=pwa") "document") = SHELL_RESOURCE ∧
  ∃ o w3,
    on_fetch site net_down (mkRequest "GET" site "/" ("?" +:+ "source=pwa") "document")
      (snd (on_activate (snd (on_install site net_shell previous_version_world)))) =
      (Served o, w3) ∧
    heap w3 !! o = Some (mkObject offline_page false).
Proof.
  apply (shell_path_with_query_gets_offline_page site net_shell net_down
           previous_version_world index_page manifest_doc offline_page
           "/" "source=pwa" "document"); try reflexivity.
  apply array_includes_elem. reflexivity.
Defined.

Lemma not_intercepted_iff_witness :
  classify save_request = PASS_THROUGH ∧
  on_fetch site net_assets save_request installed_world = (NotIntercepted, installed_world).
Proof.
  pose proof (not_intercepted_iff site net_assets save_request installed_world)
    as (Hiff & Hleft & _).
  assert (Hc : classify save_request = PASS_THROUGH).
  { apply Hiff. left. discriminate. }
  split; [exact Hc | exact (Hleft Hc)].
Defined.

Lemma bypassed_iff_contains_witness :
  bypassed lookalike_request = true ∧
  (bypassed root_request = true →
   ∃ marker pre post,
     marker ∈ ["googleapis"; "firebase"; "gstatic"] ∧
     origin root_request = pre +:+ marker +:+ post).
Proof.
  split.
  - apply (bypassed_iff_contains lookalike_request).
    exists "firebase", "https://my", "clone.example.com".
    split; [apply array_includes_elem|]; reflexivity.
  - apply (bypassed_iff_contains root_request).
Defined.

Lemma static_or_dynamic_iff_witness :
  classify logo_request = STATIC_ASSET ∧ classify pdf_request = DYNAMIC_RESOURCE.
Proof.
  split.
  - apply (static_or_dynamic_iff logo_request). split_and!.
    + reflexivity.
    + reflexivity.
    + intros H%array_includes_elem. discriminate H.
    + apply array_includes_elem. reflexivity.
  - apply (static_or_dynamic_iff pdf_request). split_and!.
    + reflexivity.
    + reflexivity.
    + intros H%array_includes_elem. discriminate H.
    + intros H%array_includes_elem. discriminate H.
Defined.
